(** * vagueTime.js: a precise timestamp rendered as a vague time

    Shallow embedding of [src/vagueTime.js] and the properties of its
    one public function [get] (in the source: [getVagueTime]).

    The program works on JavaScript Numbers, Strings and [Date] objects.
    The embedding keeps the part of those types the program can reach
    from integral inputs:

    - a Number is [NaN] or an integer ([Int z], [z] meant to be a
      double).  Every instant a [Date] can hold is an integer of
      magnitude at most 8.64e15 < 2^53.  Where the program computes a
      Number that a double may not hold (the difference of two instants,
      the value of a numeral), the result is rounded to the nearest
      double, ties to even ([round_double]);
    - [Math.floor(a / b)] is taken as one operation, floor division
      (the only place a fraction could appear is floored at once);
    - there is no infinity: where JavaScript has one (a numeral in
      exponent notation followed by ["000"]), the model has [NaN], and
      the only consumer, [TimeClip], sends both to [NaN];
    - the wall clock ([Date.now()], in milliseconds) is an explicit
      argument [clock] of every function that can read it. *)

From Stdlib Require Import ZArith Lia Bool List.
From Stdlib Require Import Ascii String.
From Stdlib Require Import Decimal DecimalFacts DecimalString DecimalZ.

Local Open Scope string_scope.
Local Open Scope Z_scope.

(** ** The JavaScript values the program uses *)

Module JS.

(** Number: [NaN], or an integral value. *)
Inductive number : Type :=
| NaN : number
| Int : Z -> number.

(** The two kinds of argument [Date.prototype.setTime] receives here. *)
Inductive value : Type :=
| VNum : number -> value
| VStr : string -> value.

(** [ToBoolean] of a Number: [NaN] and [0] are falsy. *)
Definition truthy (n : number) : bool :=
  match n with
  | NaN => false
  | Int z => negb (z =? 0)
  end.

(** The largest magnitude up to which every integer is a double. *)
Definition max_safe : Z := 9007199254740992.

(** The double nearest to an integer, ties to the even significand:
    the 53 leading bits are kept. *)
Definition round_double (v : Z) : Z :=
  let a := Z.abs v in
  let s := Z.log2 a - 52 in
  if s <=? 0 then v
  else
    let q := a / 2 ^ s in
    let r := a mod 2 ^ s in
    let half := 2 ^ (s - 1) in
    let q' := if (half <? r) || ((r =? half) && Z.odd q) then q + 1 else q in
    Z.sgn v * (q' * 2 ^ s).

(** The plain decimal numeral of an integer. *)
Definition decimal (z : Z) : string := NilZero.string_of_int (Z.to_int z).

(** A multiple of [p] next to [a] that reads back as [a], the nearer
    one when both do (the even one on a tie). *)
Definition candidate (a p : Z) : option Z :=
  let q := a / p in
  let lo := q * p in
  let hi := (q + 1) * p in
  let ok_lo := round_double lo =? a in
  let ok_hi := round_double hi =? a in
  let lo_closer := (a - lo <? hi - a) || ((a - lo =? hi - a) && Z.even q) in
  if ok_lo && ok_hi then Some (if lo_closer then lo else hi)
  else if ok_lo then Some lo
  else if ok_hi then Some hi
  else None.

Fixpoint shortest_from (fuel : nat) (a e : Z) : Z :=
  match fuel with
  | O => a
  | S f =>
      match candidate a (10 ^ e) with
      | Some m => m
      | None => shortest_from f a (e - 1)
      end
  end.

(** The integer with the fewest significant digits that reads back as
    the double [a > 0]: its digits are those [Number::toString]
    prints. *)
Definition shortest_decimal (a : Z) : Z :=
  let n := String.length (decimal a) in
  shortest_from n a (Z.of_nat n - 1).

(** A string of digits without its trailing zeros. *)
Fixpoint strip_zeros (s : string) : string :=
  match s with
  | EmptyString => EmptyString
  | String c s' =>
      match strip_zeros s' with
      | EmptyString =>
          if Ascii.eqb c "0" then EmptyString else String c EmptyString
      | t => String c t
      end
  end.

(** Exponent notation: the first digit, the other significant digits
    after a point if there are any, [e+] and the exponent. *)
Definition exponent_numeral (m : Z) : string :=
  match decimal m with
  | EmptyString => EmptyString
  | String c rest =>
      let fraction := strip_zeros rest in
      String c ((match fraction with
                 | EmptyString => EmptyString
                 | _ => "." ++ fraction
                 end) ++ "e+" ++ decimal (Z.of_nat (String.length rest)))
  end.

(** [Number::toString].  ["NaN"] for [NaN].  Up to 2^53 in magnitude
    the numeral of an integer is its decimal expansion, with a leading
    [-] when negative.  Beyond, it is the shortest numeral that reads
    back as the same double: plain below 10^21, in exponent notation
    from 10^21 on. *)
Definition ToString (n : number) : string :=
  match n with
  | NaN => "NaN"
  | Int z =>
      if Z.abs z <=? max_safe then decimal z
      else
        let m := shortest_decimal (Z.abs z) in
        (if z <? 0 then "-" else "")
        ++ (if m <? 10 ^ 21 then decimal m else exponent_numeral m)
  end.

(** [StringToNumber] on the literals the program builds.  An optional
    [-] and decimal digits: the double nearest to their value.  The
    empty string: [0].  Anything else is [NaN]: that is ["NaN000"], and
    a numeral in exponent notation followed by ["000"], whose exponent
    of 21000 and more makes it an infinity in JavaScript. *)
Definition StringToNumber (s : string) : number :=
  match s with
  | EmptyString => Int 0
  | _ =>
      match NilZero.int_of_string s with
      | Some d => Int (round_double (Z.of_int d))
      | None => NaN
      end
  end.

Definition ToNumber (v : value) : number :=
  match v with
  | VNum n => n
  | VStr s => StringToNumber s
  end.

(** [a + b] with a String right operand: string concatenation. *)
Definition add_str (a : number) (b : string) : string := ToString a ++ b.

(** [a - b]: the double nearest to the difference. *)
Definition sub (a b : number) : number :=
  match a, b with
  | Int x, Int y => Int (round_double (x - y))
  | _, _ => NaN
  end.

(** [a >= b] and [a > b]: false as soon as one side is [NaN]. *)
Definition ge (a b : number) : bool :=
  match a, b with
  | Int x, Int y => y <=? x
  | _, _ => false
  end.

Definition gt (a b : number) : bool :=
  match a, b with
  | Int x, Int y => y <? x
  | _, _ => false
  end.

(** [a === b] on Numbers: [NaN] equals nothing. *)
Definition strict_eq (a b : number) : bool :=
  match a, b with
  | Int x, Int y => x =? y
  | _, _ => false
  end.

(** [a % b]: the remainder has the sign of the dividend; [NaN] when the
    divisor is [0]. *)
Definition rem (a b : number) : number :=
  match a, b with
  | Int x, Int y => if y =? 0 then NaN else Int (Z.rem x y)
  | _, _ => NaN
  end.

(** [Math.floor(a / b)].  A zero divisor would give an infinity, which
    [number] does not hold: the divisors of the program are its
    non-zero constants. *)
Definition floor_div (a b : number) : number :=
  match a, b with
  | Int x, Int y => if y =? 0 then NaN else Int (x / y)
  | _, _ => NaN
  end.

(** [TimeClip]: an instant further than 8.64e15 ms from the epoch is
    not a time value. *)
Definition max_time : Z := 8640000000000000.

Definition TimeClip (t : number) : number :=
  match t with
  | NaN => NaN
  | Int z => if max_time <? Z.abs z then NaN else Int z
  end.

(** A [Date] object: its time value. *)
Record Date : Type := mkDate { DateValue : number }.

(** [new Date()]: the current instant. *)
Definition new_Date (clock : Z) : Date := mkDate (TimeClip (Int clock)).

(** [time.setTime(v)]. *)
Definition Date_setTime (time : Date) (v : value) : Date :=
  mkDate (TimeClip (ToNumber v)).

(** [time.getTime()]. *)
Definition Date_getTime (time : Date) : number := DateValue time.

End JS.

Import JS.

(** ** The program *)

Module constants.
Definition year : number := Int 31557600000.
Definition month : number := Int 2629800000.
Definition week : number := Int 604800000.
Definition day : number := Int 86400000.
Definition hour : number := Int 3600000.
Definition minute : number := Int 60000.
End constants.

Record Times : Type := mkTimes {
  then_ : Date;
  now : Date;
  difference : number
}.

Definition getTime (clock : Z) (timestamp : value) : Date :=
  let time := new_Date clock in
  Date_setTime time timestamp.

(** An argument that was left out is [None] ([undefined], falsy). *)
Definition getTimes (clock : Z) (timestamp : number)
    (referenceTimestamp : option number) : Times :=
  let then' := getTime clock (VStr (add_str timestamp "000")) in
  let now' :=
    match referenceTimestamp with
    | Some r =>
        if truthy r
        then getTime clock (VStr (add_str r "000"))
        else getTime clock (VNum (Int clock))
    | None => getTime clock (VNum (Int clock))
    end in
  mkTimes then' now' (sub (Date_getTime now') (Date_getTime then')).

Definition pluraliseNoun (amount : number) (noun : string) : string :=
  noun ++ (if gt amount (Int 1) then "s" else "").

Definition getTimeDifferenceAsUnits (differenceInMs unitInMs : number)
    (unitName : string) : string :=
  let units := floor_div differenceInMs unitInMs in
  ToString units ++ " " ++ pluraliseNoun units unitName ++ " ago".

Definition getTimeDifferenceAsMixedUnits (differenceInMs firstUnitInMs : number)
    (firstUnitName : string) (secondUnitInMs : number)
    (secondUnitName : string) : string :=
  let firstUnits := floor_div differenceInMs firstUnitInMs in
  let secondUnits :=
    floor_div (rem differenceInMs firstUnitInMs) secondUnitInMs in
  ToString firstUnits ++ " " ++ pluraliseNoun firstUnits firstUnitName
    ++ " and " ++
    ToString secondUnits ++ " " ++ pluraliseNoun secondUnits secondUnitName
    ++ " ago".

Definition getTimeDifferenceAsYears (difference : number) : string :=
  getTimeDifferenceAsUnits difference constants.year "year".

Definition getTimeDifferenceAsMonths (difference : number) : string :=
  getTimeDifferenceAsUnits difference constants.month "month".

Definition getTimeDifferenceAsWeeks (difference : number) : string :=
  getTimeDifferenceAsUnits difference constants.week "week".

Definition getTimeDifferenceAsDays (difference : number) : string :=
  getTimeDifferenceAsUnits difference constants.day "day".

Definition getTimeDifferenceAsHours (difference : number) : string :=
  getTimeDifferenceAsUnits difference constants.hour "hour".

Definition getTimeDifferenceAsMinutes (difference : number) : string :=
  getTimeDifferenceAsUnits difference constants.minute "minute".

Definition getTimeDifferenceAsYearsAndMonths (difference : number) : string :=
  if strict_eq (rem difference constants.year) (Int 0)
  then getTimeDifferenceAsYears difference
  else getTimeDifferenceAsMixedUnits difference
         constants.year "year" constants.month "month".

Definition getVagueTime (clock : Z) (timestamp : number)
    (referenceTimestamp : option number) : string :=
  let times := getTimes clock timestamp referenceTimestamp in
  if ge (difference times) constants.year
  then getTimeDifferenceAsYearsAndMonths (difference times)
  else if ge (difference times) constants.month
  then getTimeDifferenceAsMonths (difference times)
  else if ge (difference times) constants.week
  then getTimeDifferenceAsWeeks (difference times)
  else if ge (difference times) constants.day
  then getTimeDifferenceAsDays (difference times)
  else if ge (difference times) constants.hour
  then getTimeDifferenceAsHours (difference times)
  else if ge (difference times) constants.minute
  then getTimeDifferenceAsMinutes (difference times)
  else "just now".

(** [exports.get = getVagueTime]. *)
Definition get := getVagueTime.

(** ** What the specification says, in its own words *)

(** The units that are rendered alone, below one year. *)
Inductive time_unit : Type := Minute | Hour | Day | Week | Month.

Definition unit_ms (u : time_unit) : Z :=
  match u with
  | Minute => 60000
  | Hour => 3600000
  | Day => 86400000
  | Week => 604800000
  | Month => 2629800000
  end.

(** The next larger threshold. *)
Definition unit_limit (u : time_unit) : Z :=
  match u with
  | Minute => 3600000
  | Hour => 86400000
  | Day => 604800000
  | Week => 2629800000
  | Month => 31557600000
  end.

Definition unit_name (u : time_unit) : string :=
  match u with
  | Minute => "minute"
  | Hour => "hour"
  | Day => "day"
  | Week => "week"
  | Month => "month"
  end.

(** The decimal numeral of an integer. *)
Definition numeral (n : Z) : string := ToString (Int n).

(** "singular exactly when N == 1". *)
Definition singular_iff_one (n : Z) (noun : string) : string :=
  if n =? 1 then noun else noun ++ "s".

(** "pluralized when N > 1". *)
Definition plural_above_one (n : Z) (noun : string) : string :=
  if 1 <? n then noun ++ "s" else noun.


(** The unit category of a phrase. *)
Inductive category : Type :=
  JustNow | Minutes | Hours | Days | Weeks | Months | Years.

Definition category_rank (c : category) : nat :=
  match c with
  | JustNow => 0
  | Minutes => 1
  | Hours => 2
  | Days => 3
  | Weeks => 4
  | Months => 5
  | Years => 6
  end%nat.

(** The nouns of the program. *)
Definition nouns : list string :=
  "minute" :: "hour" :: "day" :: "week" :: "month" :: "year" :: nil.

(** The category the specification gives a difference: the thresholds
    of its section 3, in ascending order. *)
Definition category_at (d : Z) : category :=
  if d <? 60000 then JustNow
  else if d <? 3600000 then Minutes
  else if d <? 86400000 then Hours
  else if d <? 604800000 then Days
  else if d <? 2629800000 then Weeks
  else if d <? 31557600000 then Months
  else Years.

(** Each threshold, with the category just below it and the category
    that starts at it. *)
Definition thresholds : list (Z * (category * category)) :=
  (60000, (JustNow, Minutes)) ::
  (3600000, (Minutes, Hours)) ::
  (86400000, (Hours, Days)) ::
  (604800000, (Days, Weeks)) ::
  (2629800000, (Weeks, Months)) ::
  (31557600000, (Months, Years)) :: nil.

(** ** Reading a returned phrase *)

(** What follows the first space of a string. *)
Fixpoint after_space (s : string) : string :=
  match s with
  | EmptyString => EmptyString
  | String c s' => if Ascii.eqb c " " then s' else after_space s'
  end.

(** What comes before the first space of a string. *)
Fixpoint first_word (s : string) : string :=
  match s with
  | EmptyString => EmptyString
  | String c s' =>
      if Ascii.eqb c " " then EmptyString else String c (first_word s')
  end.

Definition noun_category (noun : string) : option category :=
  if (noun =? "minute")%string || (noun =? "minutes")%string then Some Minutes
  else if (noun =? "hour")%string || (noun =? "hours")%string then Some Hours
  else if (noun =? "day")%string || (noun =? "days")%string then Some Days
  else if (noun =? "week")%string || (noun =? "weeks")%string then Some Weeks
  else if (noun =? "month")%string || (noun =? "months")%string then Some Months
  else if (noun =? "year")%string || (noun =? "years")%string then Some Years
  else None.

(** The category of a phrase: ["just now"], or the noun that follows the
    leading count. *)
Definition category_of (phrase : string) : option category :=
  if (phrase =? "just now")%string then Some JustNow
  else noun_category (first_word (after_space phrase)).

(** [contains pat s]: [pat] occurs in [s]. *)
Fixpoint contains (pat s : string) : bool :=
  String.prefix pat s ||
  match s with
  | EmptyString => false
  | String _ s' => contains pat s'
  end.

Definition is_digit (c : ascii) : bool :=
  match c with
  | "0" | "1" | "2" | "3" | "4" | "5" | "6" | "7" | "8" | "9" => true
  | _ => false
  end%char.

Fixpoint digits_only (s : string) : bool :=
  match s with
  | EmptyString => true
  | String c s' => is_digit c && digits_only s'
  end.

(** The largest whole number of seconds a [Date] can hold. *)
Definition max_seconds : Z := 8640000000000.

(** The largest count each unit is rendered with: one less than the
    number of units in the next threshold, rounded up. *)
Definition unit_max_count (u : time_unit) : Z :=
  match u with
  | Minute => 59
  | Hour => 23
  | Day => 6
  | Week => 4
  | Month => 11
  end.

(** The characters of a phrase: digits, lower-case letters, space. *)
Definition is_lower (c : ascii) : bool :=
  let n := nat_of_ascii c in
  (Nat.leb 97 n && Nat.leb n 122)%bool.

Definition phrase_char (c : ascii) : bool :=
  is_digit c || is_lower c || Ascii.eqb c " ".

Fixpoint all_chars (p : ascii -> bool) (s : string) : bool :=
  match s with
  | EmptyString => true
  | String c s' => p c && all_chars p s'
  end.
(** The scenarios of the specification, reference fixed. *)
Example scenario_30s :
  get 0 (Int 1699999970) (Some (Int 1700000000)) = "just now".
Proof. vm_compute. reflexivity. Qed.

Example scenario_2min :
  get 0 (Int 1699999880) (Some (Int 1700000000)) = "2 minutes ago".
Proof. vm_compute. reflexivity. Qed.

Example scenario_1hour :
  get 0 (Int (1700000000 - 3600)) (Some (Int 1700000000)) = "1 hour ago".
Proof. vm_compute. reflexivity. Qed.

Example scenario_1week :
  get 0 (Int (1700000000 - 604800)) (Some (Int 1700000000)) = "1 week ago".
Proof. vm_compute. reflexivity. Qed.

Example scenario_1year :
  get 0 (Int (1700000000 - 31557600)) (Some (Int 1700000000)) = "1 year ago".
Proof. vm_compute. reflexivity. Qed.

Example scenario_1year_1month :
  get 0 (Int (1700000000 - 34187400)) (Some (Int 1700000000))
  = "1 year and 1 month ago".
Proof. vm_compute. reflexivity. Qed.

(** Numerals are printed the way [Number::toString] prints integers. *)
Example numeral_120 : numeral 120 = "120".
Proof. reflexivity. Qed.

Example numeral_0 : numeral 0 = "0".
Proof. reflexivity. Qed.

Example numeral_minus_5 : numeral (-5) = "-5".
Proof. reflexivity. Qed.

Example seconds_as_string : add_str (Int 1700000000) "000" = "1700000000000".
Proof. reflexivity. Qed.

(** Beyond 2^53 the numeral is the shortest one that reads back as the
    same double, in exponent notation from 10^21 on. *)
Example numeral_2_pow_60 :
  numeral 1152921504606846976 = "1152921504606847000".
Proof. vm_compute. reflexivity. Qed.

Example numeral_2_pow_70 :
  numeral 1180591620717411303424 = "1.1805916207174113e+21".
Proof. vm_compute. reflexivity. Qed.

Example numeral_minus_2_pow_100 :
  numeral (-1267650600228229401496703205376) = "-1.2676506002282294e+30".
Proof. vm_compute. reflexivity. Qed.

Example seconds_as_string_1e21 :
  add_str (Int 1000000000000000000000) "000" = "1e+21000".
Proof. vm_compute. reflexivity. Qed.

(** An odd integer past 2^53 is half way between two doubles: the one
    with the even significand is taken. *)
Example round_double_tie_up : round_double 9467279999999999 = 9467280000000000.
Proof. vm_compute. reflexivity. Qed.

Example round_double_tie_down :
  round_double 9467280000000001 = 9467280000000000.
Proof. vm_compute. reflexivity. Qed.

(** ** Strings *)

Lemma append_assoc (a b c : string) : (a ++ b) ++ c = a ++ (b ++ c).
Proof.
  induction a as [|ch a IH]; simpl; [reflexivity|].
  now rewrite IH.
Qed.

Lemma append_nil_r (a : string) : a ++ "" = a.
Proof.
  induction a as [|ch a IH]; simpl; [reflexivity|].
  now rewrite IH.
Qed.

(** ** The cascade of [getVagueTime], by the difference *)

Section Cascade.

Variables (clock : Z) (timestamp : number) (referenceTimestamp : option number).
Variable d : Z.
Hypothesis Hd : difference (getTimes clock timestamp referenceTimestamp) = Int d.

Ltac cascade :=
  unfold get, getVagueTime; cbv zeta; rewrite Hd;
  unfold ge, constants.year, constants.month, constants.week,
    constants.day, constants.hour, constants.minute;
  repeat match goal with
  | |- context [?a <=? ?b] => destruct (Z.leb_spec a b); try lia
  end.

Lemma cascade_just_now :
  d < 60000 -> getVagueTime clock timestamp referenceTimestamp = "just now".
Proof. intros H. cascade. reflexivity. Qed.

Lemma cascade_minutes :
  60000 <= d < 3600000 ->
  getVagueTime clock timestamp referenceTimestamp
  = getTimeDifferenceAsMinutes (Int d).
Proof. intros H. cascade. reflexivity. Qed.

Lemma cascade_hours :
  3600000 <= d < 86400000 ->
  getVagueTime clock timestamp referenceTimestamp
  = getTimeDifferenceAsHours (Int d).
Proof. intros H. cascade. reflexivity. Qed.

Lemma cascade_days :
  86400000 <= d < 604800000 ->
  getVagueTime clock timestamp referenceTimestamp
  = getTimeDifferenceAsDays (Int d).
Proof. intros H. cascade. reflexivity. Qed.

Lemma cascade_weeks :
  604800000 <= d < 2629800000 ->
  getVagueTime clock timestamp referenceTimestamp
  = getTimeDifferenceAsWeeks (Int d).
Proof. intros H. cascade. reflexivity. Qed.

Lemma cascade_months :
  2629800000 <= d < 31557600000 ->
  getVagueTime clock timestamp referenceTimestamp
  = getTimeDifferenceAsMonths (Int d).
Proof. intros H. cascade. reflexivity. Qed.

Lemma cascade_years :
  31557600000 <= d ->
  getVagueTime clock timestamp referenceTimestamp
  = getTimeDifferenceAsYearsAndMonths (Int d).
Proof. intros H. cascade. reflexivity. Qed.

End Cascade.

(** A difference that is [NaN] compares false with every threshold. *)
Lemma cascade_NaN clock timestamp referenceTimestamp :
  difference (getTimes clock timestamp referenceTimestamp) = NaN ->
  getVagueTime clock timestamp referenceTimestamp = "just now".
Proof.
  intros H. unfold getVagueTime; cbv zeta. rewrite H. reflexivity.
Qed.

(** One unit, [u > 0]: the count is the floor quotient, the noun takes
    its [s] above one. *)
Lemma units_phrase (d u : Z) (name : string) :
  0 < u ->
  getTimeDifferenceAsUnits (Int d) (Int u) name
  = numeral (d / u) ++ " " ++ plural_above_one (d / u) name ++ " ago".
Proof.
  intros Hu. unfold getTimeDifferenceAsUnits, floor_div, pluraliseNoun,
    plural_above_one, numeral, gt.
  destruct (Z.eqb_spec u 0) as [->|_]; [lia|].
  cbv zeta. destruct (1 <? d / u); [reflexivity|].
  now rewrite append_nil_r.
Qed.

(** ** Doubles *)

Lemma log2_from_53 (a : Z) : 0 < Z.log2 a - 52 -> max_safe <= a.
Proof.
  intros H.
  assert (Ha : 0 < a) by (destruct a; cbn in *; lia).
  pose proof (Z.log2_spec a Ha) as [Hlo _].
  assert (2 ^ 53 <= 2 ^ Z.log2 a) by (apply Z.pow_le_mono_r; lia).
  change (2 ^ 53) with max_safe in *. lia.
Qed.

Lemma round_double_small (v : Z) : Z.abs v < max_safe -> round_double v = v.
Proof.
  intros H. unfold round_double. cbv zeta.
  destruct (Z.leb_spec (Z.log2 (Z.abs v) - 52) 0) as [_|Hs]; [reflexivity|].
  apply log2_from_53 in Hs. lia.
Qed.

(** The quotient and the rounded quotient of the general case. *)
Lemma round_double_cases (v : Z) :
  round_double v = v
  \/ exists s q',
       1 <= s /\ 2 ^ 52 * 2 ^ s <= Z.abs v
       /\ 2 ^ 52 <= q' /\ q' * 2 ^ s <= Z.abs v + 2 ^ s
       /\ round_double v = Z.sgn v * (q' * 2 ^ s).
Proof.
  unfold round_double. cbv zeta.
  set (a := Z.abs v). set (s := Z.log2 a - 52).
  destruct (Z.leb_spec s 0) as [_|Hs]; [now left|right].
  assert (Ha : 0 < a) by (pose proof (log2_from_53 a Hs); unfold max_safe in *; lia).
  pose proof (Z.log2_spec a Ha) as [Hlo _].
  assert (Hp : 0 < 2 ^ s) by (apply Z.pow_pos_nonneg; lia).
  assert (Hsplit : 2 ^ Z.log2 a = 2 ^ 52 * 2 ^ s)
    by (rewrite <- Z.pow_add_r by lia; f_equal; lia).
  assert (Hq : 2 ^ 52 <= a / 2 ^ s)
    by (apply Z.div_le_lower_bound; lia).
  pose proof (Z.mul_div_le a (2 ^ s) Hp) as Hle.
  exists s.
  exists (if (2 ^ (s - 1) <? a mod 2 ^ s)
             || ((a mod 2 ^ s =? 2 ^ (s - 1)) && Z.odd (a / 2 ^ s))
          then a / 2 ^ s + 1 else a / 2 ^ s).
  split; [lia|]. split; [lia|].
  destruct ((2 ^ (s - 1) <? a mod 2 ^ s)
            || ((a mod 2 ^ s =? 2 ^ (s - 1)) && Z.odd (a / 2 ^ s)));
    (split; [lia|split; [nia|reflexivity]]).
Qed.

Lemma abs_sgn_mul (v x : Z) : v <> 0 -> 0 <= x -> Z.abs (Z.sgn v * x) = x.
Proof. intros Hv Hx. destruct v; cbn; try lia; destruct x; cbn; lia. Qed.

Lemma round_double_abs_le (v : Z) : Z.abs (round_double v) <= 2 * Z.abs v.
Proof.
  destruct (round_double_cases v) as [->|(s & q' & Hs & Ha & Hq & Hle & ->)];
    [lia|].
  assert (Hp : 0 < 2 ^ s) by (apply Z.pow_pos_nonneg; lia).
  assert (Hv : v <> 0) by (intros ->; cbn in Ha; nia).
  rewrite abs_sgn_mul by (trivial; nia). nia.
Qed.

Lemma round_double_large (v : Z) :
  max_safe <= Z.abs v -> max_safe <= Z.abs (round_double v).
Proof.
  intros H.
  destruct (round_double_cases v) as [->|(s & q' & Hs & Ha & Hq & Hle & ->)];
    [exact H|].
  assert (Hp : 2 ^ 1 <= 2 ^ s) by (apply Z.pow_le_mono_r; lia).
  assert (Hv : v <> 0) by (intros ->; cbn in H; unfold max_safe in H; lia).
  rewrite abs_sgn_mul by (trivial; nia).
  unfold max_safe. change (2 ^ 1) with 2 in Hp. change (2 ^ 52) with 4503599627370496 in *. nia.
Qed.

Lemma round_double_positive (v : Z) : 0 < round_double v -> 0 < v.
Proof.
  destruct (round_double_cases v) as [->|(s & q' & Hs & Ha & Hq & Hle & ->)];
    [trivial|].
  intros H.
  assert (Hp : 0 < 2 ^ s) by (apply Z.pow_pos_nonneg; lia).
  destruct v as [|p|p]; cbn [Z.sgn] in H; [lia|lia|nia].
Qed.

(** An even integer below 2^54 is a double. *)
Lemma round_double_even (v : Z) :
  Z.abs v < 2 * max_safe -> Z.even v = true -> round_double v = v.
Proof.
  intros H Hev.
  destruct (Z_lt_le_dec (Z.abs v) max_safe) as [Hs|Hs];
    [now apply round_double_small|].
  unfold round_double. cbv zeta.
  assert (Ha : 0 < Z.abs v) by (unfold max_safe in Hs; lia).
  assert (Hlog : Z.log2 (Z.abs v) = 53).
  { apply Z.log2_unique; [lia|]. unfold max_safe in *.
    change (2 ^ 53) with 9007199254740992.
    change (2 ^ (53 + 1)) with 18014398509481984. lia. }
  rewrite Hlog. change (53 - 52) with 1.
  change (1 <=? 0) with false. cbv iota.
  change (2 ^ 1) with 2. change (2 ^ (1 - 1)) with 1.
  assert (Hmod : Z.abs v mod 2 = 0).
  { apply Zeven_bool_iff in Hev. apply Zeven_ex_iff in Hev.
    destruct Hev as [k ->]. rewrite Z.abs_mul.
    change (Z.abs 2) with 2. rewrite Z.mul_comm. apply Z.mod_mul. lia. }
  rewrite Hmod. cbn [Z.ltb Z.eqb Z.compare orb andb].
  pose proof (Z.div_mod (Z.abs v) 2 ltac:(lia)) as Hdm.
  rewrite Hmod in Hdm.
  replace (Z.abs v / 2 * 2) with (Z.abs v) by lia.
  rewrite Z.mul_comm. apply Z.abs_sgn.
Qed.

(** ** Numerals *)

Lemma numeral_safe (z : Z) : Z.abs z <= max_safe -> numeral z = decimal z.
Proof.
  intros H. unfold numeral, ToString.
  destruct (Z.leb_spec (Z.abs z) max_safe); [reflexivity|lia].
Qed.

Lemma digits_only_uint (u : uint) :
  digits_only (NilEmpty.string_of_uint u) = true.
Proof. induction u; simpl; auto. Qed.

Lemma digits_only_decimal (n : Z) : 0 <= n -> digits_only (decimal n) = true.
Proof.
  intros Hn. unfold decimal.
  destruct n as [|p|p]; [reflexivity| |lia].
  simpl. unfold NilZero.string_of_uint.
  destruct (Pos.to_uint p); try apply digits_only_uint. reflexivity.
Qed.

Lemma digits_only_numeral (n : Z) :
  0 <= n <= max_safe -> digits_only (numeral n) = true.
Proof.
  intros Hn. rewrite numeral_safe by lia. apply digits_only_decimal. lia.
Qed.

Lemma after_space_digits (ds rest : string) :
  digits_only ds = true -> after_space (ds ++ String " " rest) = rest.
Proof.
  induction ds as [|c ds IH]; simpl; [reflexivity|].
  intros H. apply andb_prop in H. destruct H as [Hc Hds].
  destruct (Ascii.eqb_spec c " ") as [->|_]; [discriminate|].
  now apply IH.
Qed.

Lemma contains_month_digits (ds rest : string) :
  digits_only ds = true ->
  contains "month" (ds ++ rest) = contains "month" rest.
Proof.
  induction ds as [|c ds IH]; [reflexivity|].
  intros H. simpl in H. apply andb_prop in H. destruct H as [Hc Hds].
  change ((String c ds) ++ rest) with (String c (ds ++ rest)).
  cbn [contains]. rewrite (IH Hds).
  replace (String.prefix "month" (String c (ds ++ rest))) with false;
    [reflexivity|].
  cbn [String.prefix].
  destruct (ascii_dec "m" c) as [<-|_]; [discriminate|reflexivity].
Qed.

(** ** Appending three zero digits *)

Lemma string_of_list_app (l1 l2 : list digits) :
  NilEmpty.string_of_uint (of_list (l1 ++ l2))
  = NilEmpty.string_of_uint (of_list l1)
    ++ NilEmpty.string_of_uint (of_list l2).
Proof.
  induction l1 as [|h l1 IH]; [reflexivity|].
  destruct h; simpl; now rewrite IH.
Qed.

Lemma string_of_uint_app (u v : uint) :
  NilEmpty.string_of_uint (Decimal.app u v)
  = NilEmpty.string_of_uint u ++ NilEmpty.string_of_uint v.
Proof.
  rewrite <- (of_list_to_list (Decimal.app u v)), app_spec.
  now rewrite string_of_list_app, !of_list_to_list.
Qed.

Lemma app_zeros_nonnil (u : uint) : Decimal.app u (D0 (D0 (D0 Nil))) <> Nil.
Proof.
  intros H. apply (f_equal to_list) in H. rewrite app_spec in H.
  simpl in H. destruct (to_list u); discriminate.
Qed.

Lemma to_int_nonnil (z : Z) :
  exists u, u <> Nil /\ (Z.to_int z = Pos u \/ Z.to_int z = Neg u).
Proof.
  destruct z as [|p|p]; simpl.
  - exists (D0 Nil). split; [discriminate|now left].
  - exists (Pos.to_uint p). split; [apply DecimalPos.Unsigned.to_uint_nonnil|now left].
  - exists (Pos.to_uint p). split; [apply DecimalPos.Unsigned.to_uint_nonnil|now right].
Qed.

Lemma nilzero_nonnil (u : uint) :
  u <> Nil -> NilZero.string_of_uint u = NilEmpty.string_of_uint u.
Proof. destruct u; [congruence|reflexivity..]. Qed.

(** The numeral of [z] followed by ["000"] is the numeral that
    [Decimal.app_int] builds. *)
Lemma decimal_000 (z : Z) :
  decimal z ++ "000"
  = NilZero.string_of_int (app_int (Z.to_int z) (D0 (D0 (D0 Nil)))).
Proof.
  unfold decimal.
  destruct (to_int_nonnil z) as (u & Hu & [E|E]); rewrite E; simpl;
    rewrite (nilzero_nonnil u Hu),
      (nilzero_nonnil _ (app_zeros_nonnil u)), string_of_uint_app;
    reflexivity.
Qed.

Lemma string_of_int_nonempty (d : int) :
  NilZero.string_of_int d <> EmptyString.
Proof.
  destruct d as [u|u]; simpl; [|discriminate].
  destruct u; discriminate.
Qed.

(** A plain numeral followed by ["000"] reads back as the double
    nearest to a thousand times its value. *)
Lemma decimal_000_value (z : Z) :
  StringToNumber (decimal z ++ "000") = Int (round_double (z * 1000)).
Proof.
  rewrite decimal_000. unfold StringToNumber.
  set (d := app_int (Z.to_int z) (D0 (D0 (D0 Nil)))).
  destruct (NilZero.string_of_int d) eqn:Es;
    [now apply string_of_int_nonempty in Es|].
  rewrite <- Es, NilZero.isi.
  - f_equal. f_equal. subst d.
    change (D0 (D0 (D0 Nil))) with (Nat.iter 3 D0 Nil).
    rewrite of_int_iter_D0, DecimalZ.of_to.
    cbv [Nat.iter nat_rect]. lia.
  - subst d. destruct (Z.to_int z); simpl; intros [= H];
      now apply app_zeros_nonnil in H.
  - subst d. destruct (Z.to_int z); simpl; intros [= H];
      now apply app_zeros_nonnil in H.
Qed.

(** Appending three zero digits to an integer that a double holds and
    reading the string back as a Number multiplies by 1000, up to the
    rounding of the product. *)
Lemma thousandfold (z : Z) :
  Z.abs z <= max_safe ->
  ToNumber (VStr (add_str (Int z) "000")) = Int (round_double (z * 1000)).
Proof.
  intros H. unfold ToNumber, add_str.
  change (ToString (Int z)) with (numeral z).
  rewrite numeral_safe by assumption. apply decimal_000_value.
Qed.

Lemma thousandfold_exact (z : Z) :
  Z.abs z <= max_seconds ->
  ToNumber (VStr (add_str (Int z) "000")) = Int (z * 1000).
Proof.
  unfold max_seconds. intros H.
  rewrite thousandfold by (unfold max_safe; lia).
  now rewrite round_double_small by (unfold max_safe; lia).
Qed.

Lemma thousandfold_NaN : ToNumber (VStr (add_str NaN "000")) = NaN.
Proof. reflexivity. Qed.

(** ** Numerals beyond 2^53 *)

Lemma candidate_sound (a p m : Z) :
  candidate a p = Some m -> round_double m = a.
Proof.
  unfold candidate. cbv zeta.
  destruct (Z.eqb_spec (round_double (a / p * p)) a) as [Hlo|_];
    destruct (Z.eqb_spec (round_double ((a / p + 1) * p)) a) as [Hhi|_];
    cbn [andb]; intros [= <-]; trivial.
  now destruct ((a - a / p * p <? (a / p + 1) * p - a)
                || ((a - a / p * p =? (a / p + 1) * p - a)
                    && Z.even (a / p))).
Qed.

Lemma shortest_from_sound (fuel : nat) (a e : Z) :
  round_double (shortest_from fuel a e) = a \/ shortest_from fuel a e = a.
Proof.
  revert e. induction fuel as [|f IH]; intros e; cbn [shortest_from];
    [now right|].
  destruct (candidate a (10 ^ e)) as [m|] eqn:E; [|apply IH].
  left. now apply (candidate_sound a (10 ^ e)).
Qed.

(** The shortest numeral of a double beyond 2^53 denotes at least
    2^52. *)
Lemma shortest_decimal_large (a : Z) :
  max_safe < a -> 4503599627370496 <= shortest_decimal a.
Proof.
  intros Ha. unfold shortest_decimal. cbv zeta.
  destruct (shortest_from_sound (String.length (decimal a)) a
              (Z.of_nat (String.length (decimal a)) - 1)) as [H|H];
    [|rewrite H; unfold max_safe in Ha; lia].
  set (m := shortest_from _ _ _) in *.
  assert (Hm : 0 < m)
    by (apply round_double_positive; rewrite H; unfold max_safe in Ha; lia).
  pose proof (round_double_abs_le m) as Hle. rewrite H in Hle.
  unfold max_safe in Ha. lia.
Qed.

Lemma decimal_opp (m : Z) : 0 < m -> decimal (- m) = "-" ++ decimal m.
Proof.
  intros Hm. destruct m as [|p|p]; try lia.
  unfold decimal. cbn [Z.opp Z.to_int NilZero.string_of_int].
  reflexivity.
Qed.

(** A string with an [e] in it is not an integer literal. *)
Lemma uint_of_string_e (a b : string) :
  NilEmpty.uint_of_string (a ++ String "e" b) = None.
Proof.
  induction a as [|c a IH]; cbn [append NilEmpty.uint_of_string].
  - now destruct (NilEmpty.uint_of_string b).
  - now rewrite IH.
Qed.

Lemma nilzero_uint_of_string_e (a b : string) :
  NilZero.uint_of_string (a ++ String "e" b) = None.
Proof.
  unfold NilZero.uint_of_string.
  destruct (a ++ String "e" b) eqn:E; [reflexivity|].
  rewrite <- E. apply uint_of_string_e.
Qed.

Lemma not_a_literal (a b : string) :
  StringToNumber (a ++ String "e" b) = NaN.
Proof.
  assert (H : NilZero.int_of_string (a ++ String "e" b) = None).
  { destruct a as [|c a].
    - change ("" ++ String "e" b) with (String "e" b).
      cbn [NilZero.int_of_string].
      change (Ascii.eqb "e" "-") with false. cbv iota.
      pose proof (nilzero_uint_of_string_e "" b) as H0.
      cbn [append] in H0. now rewrite H0.
    - change (String c a ++ String "e" b)
        with (String c (a ++ String "e" b)).
      cbn [NilZero.int_of_string].
      destruct (Ascii.eqb c "-").
      + now rewrite nilzero_uint_of_string_e.
      + change (String c (a ++ String "e" b))
          with (String c a ++ String "e" b).
        now rewrite nilzero_uint_of_string_e. }
  unfold StringToNumber. rewrite H.
  destruct (a ++ String "e" b) eqn:E; [|reflexivity].
  destruct a; discriminate.
Qed.

Lemma exponent_numeral_e (m : Z) :
  exists a b, exponent_numeral m = a ++ String "e" b.
Proof.
  unfold exponent_numeral.
  destruct (decimal m) as [|c rest] eqn:E;
    [now apply string_of_int_nonempty in E|].
  cbv zeta.
  exists (String c (match strip_zeros rest with
                    | EmptyString => EmptyString
                    | String _ _ => "." ++ strip_zeros rest
                    end)),
    ("+" ++ decimal (Z.of_nat (String.length rest))).
  cbn [append]. f_equal.
Qed.

Lemma TimeClip_in_range (z : Z) :
  Z.abs z <= max_time -> TimeClip (Int z) = Int z.
Proof.
  intros H. unfold TimeClip.
  destruct (Z.ltb_spec max_time (Z.abs z)); [lia|reflexivity].
Qed.

Lemma TimeClip_out_of_range (z : Z) :
  max_time < Z.abs z -> TimeClip (Int z) = NaN.
Proof.
  intros H. unfold TimeClip.
  destruct (Z.ltb_spec max_time (Z.abs z)); [reflexivity|lia].
Qed.

(** Beyond 2^53 in magnitude, the numeral followed by ["000"] is no
    time value. *)
Lemma unsafe_instant_invalid (z : Z) :
  max_safe < Z.abs z ->
  TimeClip (ToNumber (VStr (add_str (Int z) "000"))) = NaN.
Proof.
  intros H. unfold ToNumber, add_str, ToString.
  destruct (Z.leb_spec (Z.abs z) max_safe) as [Hs|_]; [lia|].
  cbv zeta.
  pose proof (shortest_decimal_large (Z.abs z) H) as Hm.
  set (m := shortest_decimal (Z.abs z)) in *.
  destruct (Z.ltb_spec m (10 ^ 21)) as [Hplain|Hexp].
  - assert (E : (if z <? 0 then "-" else "") ++ decimal m
                = decimal (if z <? 0 then - m else m)).
    { destruct (z <? 0); [|reflexivity].
      now rewrite decimal_opp by lia. }
    rewrite E, decimal_000_value.
    apply TimeClip_out_of_range.
    assert (Hbig : max_safe <= Z.abs ((if z <? 0 then - m else m) * 1000))
      by (unfold max_safe; destruct (z <? 0); lia).
    apply round_double_large in Hbig. unfold max_safe, max_time in *. lia.
  - destruct (exponent_numeral_e m) as (a & b & ->).
    rewrite !append_assoc. cbn [append].
    rewrite <- append_assoc. now rewrite not_a_literal.
Qed.

(** ** Instants and their difference *)

Lemma getTime_value (clock : Z) (v : value) :
  Date_getTime (getTime clock v) = TimeClip (ToNumber v).
Proof. reflexivity. Qed.

Lemma TimeClip_bounded (t : number) (z : Z) :
  TimeClip t = Int z -> Z.abs z <= max_time.
Proof.
  destruct t as [|x]; cbn [TimeClip]; [discriminate|].
  destruct (Z.ltb_spec max_time (Z.abs x)); [discriminate|].
  intros [= <-]. assumption.
Qed.

(** Both instants are time values, so their difference is below
    2^56. *)
Lemma sub_bounded (a b : Date) (d : Z) :
  (forall z, Date_getTime a = Int z -> Z.abs z <= max_time) ->
  (forall z, Date_getTime b = Int z -> Z.abs z <= max_time) ->
  sub (Date_getTime a) (Date_getTime b) = Int d ->
  Z.abs d <= 4 * max_time.
Proof.
  intros Ha Hb.
  destruct (Date_getTime a) as [|x]; [discriminate|].
  destruct (Date_getTime b) as [|y]; [discriminate|].
  cbn [sub]. intros [= <-].
  specialize (Ha x eq_refl). specialize (Hb y eq_refl).
  pose proof (round_double_abs_le (x - y)). lia.
Qed.

Lemma getTime_bounded (clock : Z) (v : value) (z : Z) :
  Date_getTime (getTime clock v) = Int z -> Z.abs z <= max_time.
Proof. rewrite getTime_value. apply TimeClip_bounded. Qed.

Lemma difference_bounded clock timestamp referenceTimestamp d :
  difference (getTimes clock timestamp referenceTimestamp) = Int d ->
  Z.abs d <= 4 * max_time.
Proof.
  unfold getTimes. cbv zeta. cbn [difference].
  apply sub_bounded; [|apply getTime_bounded].
  destruct referenceTimestamp as [r|]; [destruct (truthy r)|];
    apply getTime_bounded.
Qed.

(** With a reference that is supplied and not zero, both instants come
    from the arguments. *)
Lemma difference_supplied (clock : Z) (timestamp : number) (r : Z) :
  r <> 0 ->
  difference (getTimes clock timestamp (Some (Int r)))
  = sub (TimeClip (ToNumber (VStr (add_str (Int r) "000"))))
        (TimeClip (ToNumber (VStr (add_str timestamp "000")))).
Proof.
  intros Hr. unfold getTimes, truthy.
  destruct (Z.eqb_spec r 0) as [E|_]; [contradiction|].
  cbn [negb difference]. now rewrite !getTime_value.
Qed.

(** Whole seconds in the range of [Date], before or after the epoch. *)
Lemma instant_of_seconds (clock seconds : Z) :
  Z.abs seconds <= max_seconds ->
  Date_getTime (getTime clock (VStr (add_str (Int seconds) "000")))
  = Int (seconds * 1000).
Proof.
  intros H. rewrite getTime_value, thousandfold_exact by assumption.
  apply TimeClip_in_range. unfold max_seconds, max_time in *. lia.
Qed.

Lemma instant_out_of_range (clock seconds : Z) :
  max_seconds < Z.abs seconds ->
  Date_getTime (getTime clock (VStr (add_str (Int seconds) "000"))) = NaN.
Proof.
  intros H. rewrite getTime_value.
  destruct (Z_le_gt_dec (Z.abs seconds) max_safe) as [Hs|Hs];
    [|apply unsafe_instant_invalid; lia].
  rewrite thousandfold by assumption.
  apply TimeClip_out_of_range.
  destruct (Z_lt_le_dec (Z.abs (seconds * 1000)) max_safe) as [Hp|Hp].
  - rewrite round_double_small by assumption.
    unfold max_seconds, max_time in *. lia.
  - apply round_double_large in Hp. unfold max_safe, max_time in *. lia.
Qed.

Lemma difference_of_seconds (clock timestamp referenceTimestamp : Z) :
  Z.abs timestamp <= max_seconds ->
  Z.abs referenceTimestamp <= max_seconds ->
  referenceTimestamp <> 0 ->
  difference (getTimes clock (Int timestamp) (Some (Int referenceTimestamp)))
  = Int ((referenceTimestamp - timestamp) * 1000).
Proof.
  intros Ht Hr Hz.
  rewrite difference_supplied, !thousandfold_exact by assumption.
  unfold max_seconds in *.
  rewrite !TimeClip_in_range by (unfold max_time; lia).
  cbn [sub]. f_equal.
  replace (referenceTimestamp * 1000 - timestamp * 1000)
    with (2 * ((referenceTimestamp - timestamp) * 500)) by lia.
  rewrite round_double_even;
    [lia|unfold max_safe; lia|apply Z.even_mul].
Qed.

Lemma sub_NaN_r (a : number) : sub a NaN = NaN.
Proof. now destruct a. Qed.

Lemma then_invalid_difference clock (timestamp : Z) referenceTimestamp :
  max_seconds < Z.abs timestamp ->
  difference (getTimes clock (Int timestamp) referenceTimestamp) = NaN.
Proof.
  intros H. unfold getTimes. cbv zeta. cbn [difference].
  rewrite (instant_out_of_range clock timestamp H). apply sub_NaN_r.
Qed.

Lemma now_invalid_difference clock timestamp (referenceTimestamp : Z) :
  max_seconds < Z.abs referenceTimestamp ->
  difference (getTimes clock timestamp (Some (Int referenceTimestamp))) = NaN.
Proof.
  intros H. unfold getTimes, truthy. cbv zeta.
  destruct (Z.eqb_spec referenceTimestamp 0) as [E|_];
    [unfold max_seconds in H; lia|].
  cbn [negb difference].
  now rewrite (instant_out_of_range clock referenceTimestamp H).
Qed.

(** ** Pluralisation *)

Lemma pluralise_above_one (n : Z) (noun : string) :
  pluraliseNoun (Int n) noun = plural_above_one n noun.
Proof.
  unfold pluraliseNoun, plural_above_one, gt.
  destruct (1 <? n); [reflexivity|apply append_nil_r].
Qed.

Lemma plural_from_one (n : Z) (noun : string) :
  1 <= n -> plural_above_one n noun = singular_iff_one n noun.
Proof.
  intros Hn. unfold plural_above_one, singular_iff_one.
  destruct (Z.ltb_spec 1 n), (Z.eqb_spec n 1); try lia; reflexivity.
Qed.

(** ** One year and more *)

Lemma years_mixed (d : Z) :
  31557600000 <= d ->
  d mod 31557600000 <> 0 ->
  getTimeDifferenceAsYearsAndMonths (Int d)
  = numeral (d / 31557600000) ++ " "
    ++ plural_above_one (d / 31557600000) "year" ++ " and "
    ++ numeral ((d mod 31557600000) / 2629800000) ++ " "
    ++ plural_above_one ((d mod 31557600000) / 2629800000) "month"
    ++ " ago".
Proof.
  intros Hy Hm.
  unfold getTimeDifferenceAsYearsAndMonths, getTimeDifferenceAsMixedUnits,
    constants.year, constants.month, rem, floor_div, strict_eq.
  cbv zeta.
  replace (31557600000 =? 0) with false by reflexivity.
  replace (2629800000 =? 0) with false by reflexivity.
  cbv iota. rewrite Z.rem_mod_nonneg by lia.
  destruct (Z.eqb_spec (d mod 31557600000) 0) as [E|_]; [contradiction|].
  now rewrite !pluralise_above_one.
Qed.

Lemma years_whole (d : Z) :
  31557600000 <= d ->
  d mod 31557600000 = 0 ->
  getTimeDifferenceAsYearsAndMonths (Int d)
  = numeral (d / 31557600000) ++ " "
    ++ plural_above_one (d / 31557600000) "year" ++ " ago".
Proof.
  intros Hy Hm.
  unfold getTimeDifferenceAsYearsAndMonths, constants.year, rem, strict_eq.
  replace (31557600000 =? 0) with false by reflexivity.
  rewrite Z.rem_mod_nonneg, Hm by lia. cbn [Z.eqb].
  unfold getTimeDifferenceAsYears, constants.year.
  apply units_phrase. lia.
Qed.


(** ** Below one year *)

Lemma single_unit_form (u : time_unit)
    clock timestamp referenceTimestamp d :
  difference (getTimes clock timestamp referenceTimestamp) = Int d ->
  unit_ms u <= d < unit_limit u ->
  getVagueTime clock timestamp referenceTimestamp
  = numeral (d / unit_ms u) ++ " "
    ++ plural_above_one (d / unit_ms u) (unit_name u) ++ " ago".
Proof.
  intros Hd H.
  destruct u; cbn [unit_ms unit_limit unit_name] in *.
  - rewrite (cascade_minutes _ _ _ d Hd H). apply units_phrase. lia.
  - rewrite (cascade_hours _ _ _ d Hd H). apply units_phrase. lia.
  - rewrite (cascade_days _ _ _ d Hd H). apply units_phrase. lia.
  - rewrite (cascade_weeks _ _ _ d Hd H). apply units_phrase. lia.
  - rewrite (cascade_months _ _ _ d Hd H). apply units_phrase. lia.
Qed.

Lemma unit_ms_positive (u : time_unit) : 0 < unit_ms u.
Proof. destruct u; cbn; lia. Qed.

(** ** The claims *)

(** C5. Every difference [d] with [0 <= d < 60000] is rendered as
    exactly ["just now"]. *)
Theorem just_now_below_a_minute clock timestamp referenceTimestamp d :
  difference (getTimes clock timestamp referenceTimestamp) = Int d ->
  0 <= d < 60000 ->
  get clock timestamp referenceTimestamp = "just now".
Proof.
  intros Hd H. unfold get. apply (cascade_just_now _ _ _ d Hd). lia.
Qed.

Lemma just_now_below_a_minute_witness :
  difference (getTimes 0 (Int 1699999970) (Some (Int 1700000000))) = Int 30000
  /\ 0 <= 30000 < 60000
  /\ get 0 (Int 1699999970) (Some (Int 1700000000)) = "just now".
Proof.
  assert (Hd : difference (getTimes 0 (Int 1699999970) (Some (Int 1700000000)))
               = Int 30000) by (vm_compute; reflexivity).
  assert (Hr : 0 <= 30000 < 60000) by lia.
  split; [exact Hd|split; [exact Hr|]].
  exact (just_now_below_a_minute 0 _ _ 30000 Hd Hr).
Defined.

(** C1. For each unit [u] among minute, hour, day, week and month, a
    difference [d] in [[u, next threshold)] is rendered as
    ["<N> <unit> ago"] or ["<N> <unit>s ago"] with [N = floor (d / u)],
    the noun being singular exactly when [N = 1]. *)
Theorem single_unit_phrase (u : time_unit)
    clock timestamp referenceTimestamp d :
  difference (getTimes clock timestamp referenceTimestamp) = Int d ->
  unit_ms u <= d < unit_limit u ->
  get clock timestamp referenceTimestamp
  = numeral (d / unit_ms u) ++ " "
    ++ singular_iff_one (d / unit_ms u) (unit_name u) ++ " ago".
Proof.
  intros Hd H. unfold get.
  assert (Hq : 1 <= d / unit_ms u)
    by (apply Z.div_le_lower_bound; destruct u; cbn in *; lia).
  rewrite <- (plural_from_one _ _ Hq).
  destruct u; cbn [unit_ms unit_limit unit_name] in *.
  - rewrite (cascade_minutes _ _ _ d Hd H). apply units_phrase. lia.
  - rewrite (cascade_hours _ _ _ d Hd H). apply units_phrase. lia.
  - rewrite (cascade_days _ _ _ d Hd H). apply units_phrase. lia.
  - rewrite (cascade_weeks _ _ _ d Hd H). apply units_phrase. lia.
  - rewrite (cascade_months _ _ _ d Hd H). apply units_phrase. lia.
Qed.

Lemma single_unit_phrase_witness :
  difference (getTimes 0 (Int 1699999880) (Some (Int 1700000000))) = Int 120000
  /\ unit_ms Minute <= 120000 < unit_limit Minute
  /\ get 0 (Int 1699999880) (Some (Int 1700000000)) = "2 minutes ago".
Proof.
  assert (Hd : difference (getTimes 0 (Int 1699999880) (Some (Int 1700000000)))
               = Int 120000) by (vm_compute; reflexivity).
  assert (Hr : unit_ms Minute <= 120000 < unit_limit Minute) by (cbn; lia).
  split; [exact Hd|split; [exact Hr|]].
  exact (single_unit_phrase Minute 0 _ _ 120000 Hd Hr).
Defined.

(** C2. A difference [d] of at least one year that is not a multiple of
    the year is rendered as ["<Y> year[s] and <M> month[s] ago"] with
    [Y = floor (d / year)] and [M = floor ((d mod year) / month)], each
    noun taking its [s] when its count is above one. *)
Theorem years_and_months_phrase clock timestamp referenceTimestamp d :
  difference (getTimes clock timestamp referenceTimestamp) = Int d ->
  31557600000 <= d ->
  d mod 31557600000 <> 0 ->
  get clock timestamp referenceTimestamp
  = numeral (d / 31557600000) ++ " "
    ++ plural_above_one (d / 31557600000) "year" ++ " and "
    ++ numeral ((d mod 31557600000) / 2629800000) ++ " "
    ++ plural_above_one ((d mod 31557600000) / 2629800000) "month"
    ++ " ago".
Proof.
  intros Hd Hy Hm. unfold get.
  rewrite (cascade_years _ _ _ d Hd Hy). now apply years_mixed.
Qed.

Lemma years_and_months_phrase_witness :
  difference (getTimes 0 (Int (1700000000 - 34187400)) (Some (Int 1700000000)))
  = Int 34187400000
  /\ 31557600000 <= 34187400000
  /\ 34187400000 mod 31557600000 <> 0
  /\ get 0 (Int (1700000000 - 34187400)) (Some (Int 1700000000))
     = "1 year and 1 month ago".
Proof.
  assert (Hd : difference
                 (getTimes 0 (Int (1700000000 - 34187400))
                    (Some (Int 1700000000)))
               = Int 34187400000) by (vm_compute; reflexivity).
  assert (Hy : 31557600000 <= 34187400000) by lia.
  assert (Hm : 34187400000 mod 31557600000 <> 0)
    by (vm_compute; discriminate).
  split; [exact Hd|split; [exact Hy|split; [exact Hm|]]].
  exact (years_and_months_phrase 0 _ _ 34187400000 Hd Hy Hm).
Defined.

(** C3. A difference that is [N] whole years, [N >= 1], is rendered as
    ["<N> year ago"] when [N = 1] and ["<N> years ago"] when [N > 1]; the
    word "month" does not occur in the phrase. *)
Theorem whole_years_phrase clock timestamp referenceTimestamp N :
  difference (getTimes clock timestamp referenceTimestamp)
  = Int (N * 31557600000) ->
  1 <= N ->
  get clock timestamp referenceTimestamp
  = numeral N ++ " " ++ singular_iff_one N "year" ++ " ago"
  /\ contains "month" (get clock timestamp referenceTimestamp) = false.
Proof.
  intros Hd HN.
  assert (E : get clock timestamp referenceTimestamp
              = numeral N ++ " " ++ singular_iff_one N "year" ++ " ago").
  { unfold get. rewrite (cascade_years _ _ _ _ Hd) by lia.
    rewrite years_whole by (rewrite ?Z.mod_mul; lia).
    rewrite Z.div_mul by lia. now rewrite plural_from_one. }
  split; [exact E|].
  pose proof (difference_bounded _ _ _ _ Hd) as Hb.
  unfold max_time in Hb.
  rewrite E, contains_month_digits
    by (apply digits_only_numeral; unfold max_safe; lia).
  unfold singular_iff_one. destruct (N =? 1); reflexivity.
Qed.

Lemma whole_years_phrase_witness :
  difference (getTimes 0 (Int (1700000000 - 63115200)) (Some (Int 1700000000)))
  = Int (2 * 31557600000)
  /\ 1 <= 2
  /\ get 0 (Int (1700000000 - 63115200)) (Some (Int 1700000000))
     = "2 years ago"
  /\ contains "month"
       (get 0 (Int (1700000000 - 63115200)) (Some (Int 1700000000))) = false.
Proof.
  assert (Hd : difference
                 (getTimes 0 (Int (1700000000 - 63115200))
                    (Some (Int 1700000000)))
               = Int (2 * 31557600000)) by (vm_compute; reflexivity).
  assert (HN : 1 <= 2) by lia.
  split; [exact Hd|split; [exact HN|]].
  exact (whole_years_phrase 0 _ _ 2 Hd HN).
Defined.

(** C4. Every count the program computes is printed with a noun that
    takes the suffix [s] exactly when the count is above one: the count
    of a single unit below one year, the count of whole years, and both
    counts of a years and months phrase.  A count of zero is reached as
    the month part of such a phrase (the difference is less than one
    month past a whole number of years) and is rendered with the
    singular noun: ["0 month"]. *)
Theorem plural_exactly_above_one :
  (forall (N : Z) (noun : string),
     pluraliseNoun (Int N) noun = if 1 <? N then noun ++ "s" else noun)
  /\ pluraliseNoun (Int 0) "month" = "month"
  /\ (forall (u : time_unit) clock timestamp referenceTimestamp d,
        difference (getTimes clock timestamp referenceTimestamp) = Int d ->
        unit_ms u <= d < unit_limit u ->
        get clock timestamp referenceTimestamp
        = numeral (d / unit_ms u) ++ " "
          ++ (if 1 <? d / unit_ms u then unit_name u ++ "s" else unit_name u)
          ++ " ago")
  /\ (forall clock timestamp referenceTimestamp d,
        difference (getTimes clock timestamp referenceTimestamp) = Int d ->
        31557600000 <= d ->
        d mod 31557600000 = 0 ->
        get clock timestamp referenceTimestamp
        = numeral (d / 31557600000) ++ " "
          ++ (if 1 <? d / 31557600000 then "years" else "year") ++ " ago")
  /\ (forall clock timestamp referenceTimestamp d,
        difference (getTimes clock timestamp referenceTimestamp) = Int d ->
        31557600000 <= d ->
        d mod 31557600000 <> 0 ->
        get clock timestamp referenceTimestamp
        = numeral (d / 31557600000) ++ " "
          ++ (if 1 <? d / 31557600000 then "years" else "year") ++ " and "
          ++ numeral ((d mod 31557600000) / 2629800000) ++ " "
          ++ (if 1 <? (d mod 31557600000) / 2629800000
              then "months" else "month")
          ++ " ago")
  /\ (forall clock timestamp referenceTimestamp d,
        difference (getTimes clock timestamp referenceTimestamp) = Int d ->
        31557600000 <= d ->
        0 < d mod 31557600000 < 2629800000 ->
        get clock timestamp referenceTimestamp
        = numeral (d / 31557600000) ++ " "
          ++ (if 1 <? d / 31557600000 then "years" else "year")
          ++ " and 0 month ago")
  /\ get 31557600001 (Int 0) None = "1 year and 0 month ago"
  /\ get 0 (Int 0) (Some (Int 31557601)) = "1 year and 0 month ago".
Proof.
  split; [intros N noun; apply pluralise_above_one|].
  split; [reflexivity|].
  split; [intros u clock t r d Hd H; exact (single_unit_form u _ _ _ d Hd H)|].
  split.
  { intros clock t r d Hd Hy Hm. unfold get.
    rewrite (cascade_years _ _ _ d Hd Hy). exact (years_whole d Hy Hm). }
  split.
  { intros clock t r d Hd Hy Hm. unfold get.
    rewrite (cascade_years _ _ _ d Hd Hy). exact (years_mixed d Hy Hm). }
  split.
  { intros clock t r d Hd Hy Hm. unfold get.
    rewrite (cascade_years _ _ _ d Hd Hy).
    rewrite (years_mixed d Hy) by lia.
    rewrite (Z.div_small (d mod 31557600000) 2629800000) by lia.
    reflexivity. }
  split; vm_compute; reflexivity.
Qed.

Lemma plural_exactly_above_one_witness :
  get 0 (Int 1699999880) (Some (Int 1700000000)) = "2 minutes ago"
  /\ get 0 (Int 1699996400) (Some (Int 1700000000)) = "1 hour ago"
  /\ get 0 (Int 0) (Some (Int 63115200)) = "2 years ago"
  /\ get 0 (Int 0) (Some (Int 99932400)) = "3 years and 2 months ago"
  /\ get 0 (Int 0) (Some (Int 31557601)) = "1 year and 0 month ago".
Proof.
  destruct plural_exactly_above_one
    as (_ & _ & Hunit & Hwhole & Hmixed & Hzero & _).
  split; [|split; [|split; [|split]]].
  - apply (Hunit Minute 0 _ _ 120000); [vm_compute; reflexivity|cbn; lia].
  - apply (Hunit Hour 0 _ _ 3600000); [vm_compute; reflexivity|cbn; lia].
  - apply (Hwhole 0 _ _ 63115200000);
      [vm_compute; reflexivity|lia|vm_compute; reflexivity].
  - apply (Hmixed 0 _ _ 99932400000);
      [vm_compute; reflexivity|lia|vm_compute; discriminate].
  - apply (Hzero 0 _ _ 31557601000);
      [vm_compute; reflexivity|lia|vm_compute; split; reflexivity].
Defined.

(** C6, as the program has it.  For non-negative whole seconds that a
    [Date] can hold (at most 8,640,000,000,000), with the reference
    supplied and not zero, the difference used for the unit selection is
    [(referenceTimestamp - timestamp) * 1000]: for these inputs,
    appending three zero digits is multiplication by 1000. *)
Theorem difference_in_milliseconds clock (timestamp referenceTimestamp : Z) :
  0 <= timestamp <= max_seconds ->
  0 < referenceTimestamp <= max_seconds ->
  difference (getTimes clock (Int timestamp) (Some (Int referenceTimestamp)))
  = Int ((referenceTimestamp - timestamp) * 1000)
  /\ ToNumber (VStr (add_str (Int timestamp) "000")) = Int (timestamp * 1000)
  /\ ToNumber (VStr (add_str (Int referenceTimestamp) "000"))
     = Int (referenceTimestamp * 1000).
Proof.
  intros Ht Hr.
  split; [|split; apply thousandfold_exact; lia].
  apply difference_of_seconds; lia.
Qed.

Lemma difference_in_milliseconds_witness :
  0 <= 1699999880 <= max_seconds
  /\ 0 < 1700000000 <= max_seconds
  /\ difference (getTimes 0 (Int 1699999880) (Some (Int 1700000000)))
     = Int ((1700000000 - 1699999880) * 1000).
Proof.
  assert (Ht : 0 <= 1699999880 <= max_seconds) by (unfold max_seconds; lia).
  assert (Hr : 0 < 1700000000 <= max_seconds) by (unfold max_seconds; lia).
  split; [exact Ht|split; [exact Hr|]].
  exact (proj1 (difference_in_milliseconds 0 1699999880 1700000000 Ht Hr)).
Defined.

(** C6, as stated, fails past the range of [Date]: a reference of
    8,640,000,000,001 seconds is not a time value, the difference is
    [NaN] and the phrase is ["just now"]. *)
Lemma difference_beyond_date_range :
  0 <= 0 /\ 0 < 8640000000001
  /\ difference (getTimes 0 (Int 0) (Some (Int 8640000000001))) = NaN
  /\ difference (getTimes 0 (Int 0) (Some (Int 8640000000001)))
     <> Int ((8640000000001 - 0) * 1000)
  /\ get 0 (Int 0) (Some (Int 8640000000001)) = "just now".
Proof.
  assert (E : difference (getTimes 0 (Int 0) (Some (Int 8640000000001))) = NaN)
    by (vm_compute; reflexivity).
  split; [lia|]. split; [lia|]. split; [exact E|].
  split; [rewrite E; discriminate|].
  vm_compute. reflexivity.
Qed.

(** C8. With both arguments supplied and the reference not zero, the
    phrase does not depend on when the call is made: two calls with the
    same arguments return the same string. *)
Theorem deterministic_with_reference
    (clock1 clock2 : Z) (timestamp : number) (referenceTimestamp : Z) :
  referenceTimestamp <> 0 ->
  get clock1 timestamp (Some (Int referenceTimestamp))
  = get clock2 timestamp (Some (Int referenceTimestamp)).
Proof.
  intros Hr. unfold get, getVagueTime. cbv zeta.
  now rewrite !(difference_supplied _ _ _ Hr).
Qed.

Lemma deterministic_with_reference_witness :
  1700000000 <> 0
  /\ get 1700000000000 (Int 1699999880) (Some (Int 1700000000))
     = get 1800000000000 (Int 1699999880) (Some (Int 1700000000)).
Proof.
  assert (Hr : 1700000000 <> 0) by lia.
  split; [exact Hr|].
  exact (deterministic_with_reference
           1700000000000 1800000000000 (Int 1699999880) 1700000000 Hr).
Defined.

(** C9. A reference of [0] is falsy, so it is treated as a reference
    that was left out: "now" is the wall clock, not the epoch. *)
Theorem zero_reference_reads_the_clock (clock : Z) (timestamp : number) :
  getTimes clock timestamp (Some (Int 0)) = getTimes clock timestamp None
  /\ Date_getTime (now (getTimes clock timestamp (Some (Int 0))))
     = TimeClip (Int clock)
  /\ get clock timestamp (Some (Int 0)) = get clock timestamp None
  /\ get 1700000000000 (Int 0) (Some (Int 0)) = "53 years and 10 months ago"
  /\ get 1700000000000 (Int 1699999000) (Some (Int 0)) = "16 minutes ago".
Proof.
  assert (E : getTimes clock timestamp (Some (Int 0))
              = getTimes clock timestamp None) by reflexivity.
  split; [exact E|].
  split; [reflexivity|].
  split; [unfold get, getVagueTime; now rewrite E|].
  split; vm_compute; reflexivity.
Qed.

(** ** The shape of a phrase *)

Lemma numeral_head (q : Z) :
  0 <= q <= max_safe ->
  exists c s, numeral q = String c s /\ is_digit c = true.
Proof.
  intros Hq. pose proof (digits_only_numeral q Hq) as Hd.
  rewrite numeral_safe in * by lia. unfold decimal in *.
  destruct (NilZero.string_of_int (Z.to_int q)) as [|c s] eqn:E.
  - now apply string_of_int_nonempty in E.
  - exists c, s. split; [reflexivity|].
    simpl in Hd. now apply andb_prop in Hd.
Qed.

Lemma counted_is_not_just_now (q : Z) (rest : string) :
  0 <= q <= max_safe ->
  ((numeral q ++ rest) =? "just now")%string = false.
Proof.
  intros Hq. destruct (numeral_head q Hq) as (c & s & -> & Hc).
  cbn [append String.eqb].
  destruct (Ascii.eqb_spec c "j") as [->|_]; [discriminate|reflexivity].
Qed.

Lemma category_of_counted (q : Z) (rest : string) :
  0 <= q <= max_safe ->
  category_of (numeral q ++ " " ++ rest) = noun_category (first_word rest).
Proof.
  intros Hq. unfold category_of.
  rewrite counted_is_not_just_now by assumption.
  change (" " ++ rest) with (String " " rest).
  now rewrite after_space_digits by now apply digits_only_numeral.
Qed.

Lemma difference_cases (d : Z) :
  d < 60000 \/ 60000 <= d < 3600000 \/ 3600000 <= d < 86400000
  \/ 86400000 <= d < 604800000 \/ 604800000 <= d < 2629800000
  \/ 2629800000 <= d < 31557600000 \/ 31557600000 <= d.
Proof. lia. Qed.


Ltac category_by_range :=
  unfold category_at;
  repeat match goal with
  | |- context [?a <? ?b] => destruct (Z.ltb_spec a b); try lia
  end;
  reflexivity.

(** What [getVagueTime] returns from one whole unit on: a positive
    count, a space, and a rest fixed by the branch taken. *)
Lemma counted_phrase clock timestamp referenceTimestamp d :
  difference (getTimes clock timestamp referenceTimestamp) = Int d ->
  60000 <= d ->
  exists (q : Z) (noun tail : string),
    1 <= q <= max_safe
    /\ getVagueTime clock timestamp referenceTimestamp
       = numeral q ++ " " ++ plural_above_one q noun ++ tail
    /\ noun_category noun = Some (category_at d)
    /\ (tail = " ago"
        \/ exists n m, tail = " and " ++ n ++ " " ++ m ++ " ago")
    /\ In noun nouns.
Proof.
  intros Hd Hlow.
  pose proof (difference_bounded _ _ _ _ Hd) as Hb. unfold max_time in Hb.
  assert (Hq : forall u, 60000 <= u -> u <= d -> 1 <= d / u <= max_safe).
  { intros u Hu Hle. split; [apply Z.div_le_lower_bound; lia|].
    apply Z.div_le_upper_bound; [lia|]. unfold max_safe. nia. }
  destruct (difference_cases d)
    as [H|[H|[H|[H|[H|[H|H]]]]]]; [lia|..].
  - exists (d / 60000), "minute", " ago".
    rewrite (cascade_minutes _ _ _ d Hd H).
    unfold getTimeDifferenceAsMinutes, constants.minute.
    rewrite units_phrase by lia.
    split; [apply Hq; lia|]. split; [reflexivity|].
    split; [category_by_range|]. split; [now left|simpl; tauto].
  - exists (d / 3600000), "hour", " ago".
    rewrite (cascade_hours _ _ _ d Hd H).
    unfold getTimeDifferenceAsHours, constants.hour.
    rewrite units_phrase by lia.
    split; [apply Hq; lia|]. split; [reflexivity|].
    split; [category_by_range|]. split; [now left|simpl; tauto].
  - exists (d / 86400000), "day", " ago".
    rewrite (cascade_days _ _ _ d Hd H).
    unfold getTimeDifferenceAsDays, constants.day.
    rewrite units_phrase by lia.
    split; [apply Hq; lia|]. split; [reflexivity|].
    split; [category_by_range|]. split; [now left|simpl; tauto].
  - exists (d / 604800000), "week", " ago".
    rewrite (cascade_weeks _ _ _ d Hd H).
    unfold getTimeDifferenceAsWeeks, constants.week.
    rewrite units_phrase by lia.
    split; [apply Hq; lia|]. split; [reflexivity|].
    split; [category_by_range|]. split; [now left|simpl; tauto].
  - exists (d / 2629800000), "month", " ago".
    rewrite (cascade_months _ _ _ d Hd H).
    unfold getTimeDifferenceAsMonths, constants.month.
    rewrite units_phrase by lia.
    split; [apply Hq; lia|]. split; [reflexivity|].
    split; [category_by_range|]. split; [now left|simpl; tauto].
  - rewrite (cascade_years _ _ _ d Hd H).
    assert (Hk : noun_category "year" = Some (category_at d))
      by category_by_range.
    destruct (Z.eq_dec (d mod 31557600000) 0) as [E|E].
    + exists (d / 31557600000), "year", " ago".
      rewrite (years_whole d H E).
      split; [apply Hq; lia|]. split; [reflexivity|].
      split; [exact Hk|]. split; [now left|simpl; tauto].
    + exists (d / 31557600000), "year".
      eexists. rewrite (years_mixed d H E).
      split; [apply Hq; lia|]. split; [reflexivity|].
      split; [exact Hk|]. split; [|simpl; tauto].
      right. eexists. eexists. reflexivity.
Qed.


(** ** Categories *)

Lemma category_by_difference clock timestamp referenceTimestamp d :
  difference (getTimes clock timestamp referenceTimestamp) = Int d ->
  category_of (getVagueTime clock timestamp referenceTimestamp)
  = Some (category_at d).
Proof.
  intros Hd. destruct (Z.lt_ge_cases d 60000) as [H|H].
  - rewrite (cascade_just_now _ _ _ d Hd H).
    unfold category_at. destruct (Z.ltb_spec d 60000); [reflexivity|lia].
  - destruct (counted_phrase _ _ _ d Hd H)
      as (q & noun & tail & Hq & E & Hk & Htail & Hnoun).
    rewrite E, category_of_counted, <- Hk by lia.
    unfold plural_above_one.
    simpl in Hnoun.
    destruct Hnoun as [<-|[<-|[<-|[<-|[<-|[<-|[]]]]]]];
      destruct Htail as [->|(n & m & ->)];
      destruct (1 <? q); reflexivity.
Qed.

Lemma category_at_monotone (d1 d2 : Z) :
  d1 <= d2 ->
  (category_rank (category_at d1) <= category_rank (category_at d2))%nat.
Proof.
  intros H. unfold category_at.
  repeat match goal with
  | |- context [?a <? ?b] => destruct (Z.ltb_spec a b); try lia
  end; cbn; lia.
Qed.

(** C7. The category of the phrase is monotone in the difference and
    changes exactly at each threshold: the difference [u - 1] is still in
    the category below, the difference [u] is in the category of [u];
    59999 gives ["just now"] and 60000 gives ["1 minute ago"]. *)
Theorem category_changes_at_thresholds :
  (forall clock timestamp referenceTimestamp d,
     difference (getTimes clock timestamp referenceTimestamp) = Int d ->
     category_of (get clock timestamp referenceTimestamp)
     = Some (category_at d))
  /\ (forall clock1 timestamp1 reference1 d1 clock2 timestamp2 reference2 d2,
        difference (getTimes clock1 timestamp1 reference1) = Int d1 ->
        difference (getTimes clock2 timestamp2 reference2) = Int d2 ->
        d1 <= d2 ->
        exists k1 k2,
          category_of (get clock1 timestamp1 reference1) = Some k1
          /\ category_of (get clock2 timestamp2 reference2) = Some k2
          /\ (category_rank k1 <= category_rank k2)%nat)
  /\ (forall u below at_u,
        In (u, (below, at_u)) thresholds ->
        category_rank at_u = S (category_rank below)
        /\ forall clock timestamp referenceTimestamp,
             (difference (getTimes clock timestamp referenceTimestamp)
              = Int (u - 1) ->
              category_of (get clock timestamp referenceTimestamp)
              = Some below)
             /\ (difference (getTimes clock timestamp referenceTimestamp)
                 = Int u ->
                 category_of (get clock timestamp referenceTimestamp)
                 = Some at_u))
  /\ get 59999 (Int 0) None = "just now"
  /\ get 60000 (Int 0) None = "1 minute ago".
Proof.
  split; [exact category_by_difference|].
  split.
  { intros c1 t1 r1 d1 c2 t2 r2 d2 H1 H2 Hle.
    exists (category_at d1), (category_at d2).
    split; [now apply category_by_difference|].
    split; [now apply category_by_difference|].
    now apply category_at_monotone. }
  split.
  { intros u below at_u Hin. simpl in Hin.
    destruct Hin as [E|[E|[E|[E|[E|[E|[]]]]]]];
      injection E as <- <- <-;
      (split; [reflexivity|]);
      intros c t r; split; intros Hd;
      unfold get; rewrite (category_by_difference _ _ _ _ Hd);
      reflexivity. }
  split; vm_compute; reflexivity.
Qed.

Lemma category_changes_at_thresholds_witness :
  category_of (get 3599999 (Int 0) None) = Some Minutes
  /\ category_of (get 3600000 (Int 0) None) = Some Hours
  /\ category_of (get 0 (Int 1699913600) (Some (Int 1700000000))) = Some Days.
Proof.
  destruct category_changes_at_thresholds as (Hcat & _ & Hedge & _).
  assert (Hin : In (3600000, (Minutes, Hours)) thresholds)
    by (simpl; tauto).
  destruct (Hedge 3600000 Minutes Hours Hin) as (_ & Hboth).
  split; [|split].
  - apply (proj1 (Hboth 3599999 (Int 0) None)). vm_compute. reflexivity.
  - apply (proj2 (Hboth 3600000 (Int 0) None)). vm_compute. reflexivity.
  - apply (Hcat 0 (Int 1699913600) (Some (Int 1700000000)) 86400000).
    vm_compute. reflexivity.
Defined.

(** ** Beyond the claims: instants *)

(** X5. Whole seconds on either side of the epoch: for a timestamp and
    a non-zero reference that a [Date] can hold, negative ones included,
    the difference is [(referenceTimestamp - timestamp) * 1000]. *)
Theorem difference_around_the_epoch
    (clock timestamp referenceTimestamp : Z) :
  Z.abs timestamp <= max_seconds ->
  Z.abs referenceTimestamp <= max_seconds ->
  referenceTimestamp <> 0 ->
  difference (getTimes clock (Int timestamp) (Some (Int referenceTimestamp)))
  = Int ((referenceTimestamp - timestamp) * 1000).
Proof. apply difference_of_seconds. Qed.

Lemma difference_around_the_epoch_witness :
  Z.abs (-86400) <= max_seconds
  /\ Z.abs (-82800) <= max_seconds
  /\ -82800 <> 0
  /\ difference (getTimes 0 (Int (-86400)) (Some (Int (-82800))))
     = Int ((-82800 - -86400) * 1000)
  /\ get 0 (Int (-86400)) (Some (Int (-82800))) = "1 hour ago".
Proof.
  assert (Ht : Z.abs (-86400) <= max_seconds) by (unfold max_seconds; lia).
  assert (Hr : Z.abs (-82800) <= max_seconds) by (unfold max_seconds; lia).
  assert (Hz : -82800 <> 0) by lia.
  split; [exact Ht|split; [exact Hr|split; [exact Hz|]]].
  split; [exact (difference_around_the_epoch 0 (-86400) (-82800) Ht Hr Hz)|].
  vm_compute. reflexivity.
Defined.

(** X3. With the reference left out, the timestamp is in seconds and
    the clock in milliseconds: the difference is
    [clock - timestamp * 1000], rounded to the nearest double, and so
    exact whenever its magnitude is below 2^53. *)
Theorem difference_with_the_clock (clock timestamp : Z) :
  Z.abs clock <= max_time ->
  Z.abs timestamp <= max_seconds ->
  difference (getTimes clock (Int timestamp) None)
  = Int (round_double (clock - timestamp * 1000))
  /\ (Z.abs (clock - timestamp * 1000) < max_safe ->
      difference (getTimes clock (Int timestamp) None)
      = Int (clock - timestamp * 1000)).
Proof.
  intros Hc Ht.
  assert (E : difference (getTimes clock (Int timestamp) None)
              = Int (round_double (clock - timestamp * 1000))).
  { unfold getTimes. cbv zeta. cbn [difference].
    rewrite (instant_of_seconds clock timestamp Ht), getTime_value.
    cbn [ToNumber]. now rewrite TimeClip_in_range. }
  split; [exact E|].
  intros Hs. now rewrite E, round_double_small.
Qed.

Lemma difference_with_the_clock_witness :
  Z.abs 1700000000123 <= max_time
  /\ Z.abs 1699999880 <= max_seconds
  /\ Z.abs (1700000000123 - 1699999880 * 1000) < max_safe
  /\ difference (getTimes 1700000000123 (Int 1699999880) None)
     = Int (1700000000123 - 1699999880 * 1000).
Proof.
  assert (Hc : Z.abs 1700000000123 <= max_time) by (unfold max_time; lia).
  assert (Ht : Z.abs 1699999880 <= max_seconds) by (unfold max_seconds; lia).
  assert (Hs : Z.abs (1700000000123 - 1699999880 * 1000) < max_safe)
    by (unfold max_safe; lia).
  split; [exact Hc|split; [exact Ht|split; [exact Hs|]]].
  exact (proj2 (difference_with_the_clock 1700000000123 1699999880 Hc Ht) Hs).
Defined.

(** Past 2^53 the difference with the clock is rounded: an odd
    difference becomes the even neighbour. *)
Example difference_with_the_clock_rounded :
  difference (getTimes 827279999999999 (Int (-8640000000000)) None)
  = Int 9467280000000000.
Proof. vm_compute. reflexivity. Qed.

(** X2. An instant that a [Date] cannot hold makes no error: a
    timestamp beyond 8,640,000,000,000 seconds (whatever the reference),
    a reference beyond it (whatever the timestamp) and a timestamp that
    is [NaN] all give ["just now"]. *)
Theorem invalid_date_is_just_now :
  (forall clock (timestamp : Z) referenceTimestamp,
     max_seconds < Z.abs timestamp ->
     get clock (Int timestamp) referenceTimestamp = "just now")
  /\ (forall clock timestamp (referenceTimestamp : Z),
        max_seconds < Z.abs referenceTimestamp ->
        get clock timestamp (Some (Int referenceTimestamp)) = "just now")
  /\ (forall clock referenceTimestamp,
        get clock NaN referenceTimestamp = "just now").
Proof.
  split; [|split].
  - intros clock t r H. apply cascade_NaN.
    now apply then_invalid_difference.
  - intros clock t r H. apply cascade_NaN.
    now apply now_invalid_difference.
  - intros clock r. apply cascade_NaN.
    unfold getTimes. cbv zeta. cbn [difference]. apply sub_NaN_r.
Qed.

Lemma invalid_date_is_just_now_witness :
  max_seconds < Z.abs 8640000000001
  /\ get 1700000000000 (Int 8640000000001) None = "just now"
  /\ get 0 (Int 0) (Some (Int (-8640000000001))) = "just now".
Proof.
  assert (H : max_seconds < Z.abs 8640000000001)
    by (unfold max_seconds; lia).
  assert (H' : max_seconds < Z.abs (-8640000000001))
    by (unfold max_seconds; lia).
  destruct invalid_date_is_just_now as (Hthen & Hnow & _).
  split; [exact H|split].
  - exact (Hthen 1700000000000 8640000000001 None H).
  - exact (Hnow 0 (Int 0) (-8640000000001) H').
Defined.

(** X1. A timestamp in the future of the reference, or less than sixty
    seconds before it, is rendered as ["just now"]. *)
Theorem future_is_just_now (clock timestamp referenceTimestamp : Z) :
  Z.abs timestamp <= max_seconds ->
  Z.abs referenceTimestamp <= max_seconds ->
  referenceTimestamp <> 0 ->
  referenceTimestamp - timestamp < 60 ->
  get clock (Int timestamp) (Some (Int referenceTimestamp)) = "just now".
Proof.
  intros Ht Hr Hz Hlt. unfold get.
  apply (cascade_just_now _ _ _ _ (difference_of_seconds clock _ _ Ht Hr Hz)).
  lia.
Qed.

Lemma future_is_just_now_witness :
  Z.abs 1800000000 <= max_seconds
  /\ Z.abs 1700000000 <= max_seconds
  /\ 1700000000 <> 0
  /\ 1700000000 - 1800000000 < 60
  /\ get 0 (Int 1800000000) (Some (Int 1700000000)) = "just now".
Proof.
  assert (Ht : Z.abs 1800000000 <= max_seconds) by (unfold max_seconds; lia).
  assert (Hr : Z.abs 1700000000 <= max_seconds) by (unfold max_seconds; lia).
  assert (Hz : 1700000000 <> 0) by lia.
  assert (Hlt : 1700000000 - 1800000000 < 60) by lia.
  split; [exact Ht|split; [exact Hr|split; [exact Hz|split; [exact Hlt|]]]].
  exact (future_is_just_now 0 1800000000 1700000000 Ht Hr Hz Hlt).
Defined.

(** X4. With the reference supplied, the phrase depends on the two
    instants only through their distance: moving both by the same number
    of seconds, within the range of [Date] and without making the
    reference zero, leaves the phrase unchanged. *)
Theorem phrase_depends_on_distance
    (clock1 clock2 timestamp referenceTimestamp shift : Z) :
  Z.abs timestamp <= max_seconds ->
  Z.abs referenceTimestamp <= max_seconds ->
  Z.abs (timestamp + shift) <= max_seconds ->
  Z.abs (referenceTimestamp + shift) <= max_seconds ->
  referenceTimestamp <> 0 ->
  referenceTimestamp + shift <> 0 ->
  get clock1 (Int (timestamp + shift)) (Some (Int (referenceTimestamp + shift)))
  = get clock2 (Int timestamp) (Some (Int referenceTimestamp)).
Proof.
  intros Ht Hr Hts Hrs Hz Hzs. unfold get, getVagueTime. cbv zeta.
  rewrite (difference_of_seconds clock1 _ _ Hts Hrs Hzs).
  rewrite (difference_of_seconds clock2 _ _ Ht Hr Hz).
  replace ((referenceTimestamp + shift - (timestamp + shift)) * 1000)
    with ((referenceTimestamp - timestamp) * 1000) by lia.
  reflexivity.
Qed.

Lemma phrase_depends_on_distance_witness :
  Z.abs 1699999880 <= max_seconds
  /\ Z.abs 1700000000 <= max_seconds
  /\ Z.abs (1699999880 + -1800000000) <= max_seconds
  /\ Z.abs (1700000000 + -1800000000) <= max_seconds
  /\ 1700000000 <> 0
  /\ 1700000000 + -1800000000 <> 0
  /\ get 5 (Int (1699999880 + -1800000000))
       (Some (Int (1700000000 + -1800000000)))
     = get 7 (Int 1699999880) (Some (Int 1700000000)).
Proof.
  assert (H1 : Z.abs 1699999880 <= max_seconds) by (unfold max_seconds; lia).
  assert (H2 : Z.abs 1700000000 <= max_seconds) by (unfold max_seconds; lia).
  assert (H3 : Z.abs (1699999880 + -1800000000) <= max_seconds)
    by (unfold max_seconds; lia).
  assert (H4 : Z.abs (1700000000 + -1800000000) <= max_seconds)
    by (unfold max_seconds; lia).
  assert (H5 : 1700000000 <> 0) by lia.
  assert (H6 : 1700000000 + -1800000000 <> 0) by lia.
  repeat (split; [assumption|]).
  exact (phrase_depends_on_distance 5 7 1699999880 1700000000 (-1800000000)
           H1 H2 H3 H4 H5 H6).
Defined.

(** ** Beyond the claims: the counts of a phrase *)

Lemma first_word_digits (ds rest : string) :
  digits_only ds = true -> first_word (ds ++ String " " rest) = ds.
Proof.
  induction ds as [|c ds IH]; simpl; [reflexivity|].
  intros H. apply andb_prop in H. destruct H as [Hc Hds].
  destruct (Ascii.eqb_spec c " ") as [->|_]; [discriminate|].
  now rewrite IH.
Qed.

(** The numeral of an integer below 2^53 reads back as that integer. *)
Lemma numeral_reads_back (z : Z) :
  Z.abs z < max_safe -> StringToNumber (numeral z) = Int z.
Proof.
  intros Hz. rewrite numeral_safe by lia.
  unfold decimal, StringToNumber.
  destruct (NilZero.string_of_int (Z.to_int z)) eqn:Es;
    [now apply string_of_int_nonempty in Es|].
  rewrite <- Es, NilZero.isi.
  - now rewrite DecimalZ.of_to, round_double_small.
  - destruct (to_int_nonnil z) as (u & Hu & [E|E]); rewrite E; congruence.
  - destruct (to_int_nonnil z) as (u & Hu & [E|E]); rewrite E; congruence.
Qed.

(** X6. Below one year, the count that leads the phrase reads back as
    a number [N] that never reaches the next unit (at most 59 minutes,
    23 hours, 6 days, 4 weeks, 11 months) and never overstates the
    elapsed time: [N * u <= d < (N + 1) * u]. *)
Theorem count_reads_back (u : time_unit)
    clock timestamp referenceTimestamp d :
  difference (getTimes clock timestamp referenceTimestamp) = Int d ->
  unit_ms u <= d < unit_limit u ->
  exists N : Z,
    StringToNumber (first_word (get clock timestamp referenceTimestamp))
    = Int N
    /\ 1 <= N <= unit_max_count u
    /\ N * unit_ms u <= d < (N + 1) * unit_ms u.
Proof.
  intros Hd H. exists (d / unit_ms u).
  pose proof (unit_ms_positive u) as Hu.
  assert (Hlow : 1 <= d / unit_ms u)
    by (apply Z.div_le_lower_bound; lia).
  assert (Hhigh : d / unit_ms u <= unit_max_count u).
  { apply Z.lt_succ_r. apply Z.div_lt_upper_bound; [exact Hu|].
    destruct u; cbn [unit_ms unit_limit unit_max_count] in *; lia. }
  assert (Hsafe : d / unit_ms u < max_safe)
    by (unfold max_safe; destruct u; cbn [unit_max_count] in Hhigh; lia).
  split; [|split].
  - unfold get. rewrite (single_unit_form u _ _ _ d Hd H).
    change (" " ++ plural_above_one (d / unit_ms u) (unit_name u) ++ " ago")
      with (String " "
              (plural_above_one (d / unit_ms u) (unit_name u) ++ " ago")).
    rewrite first_word_digits by (apply digits_only_numeral; lia).
    apply numeral_reads_back. lia.
  - split; [exact Hlow|exact Hhigh].
  - pose proof (Z.mul_div_le d (unit_ms u) Hu).
    pose proof (Z.mul_succ_div_gt d (unit_ms u) Hu).
    lia.
Qed.

Lemma count_reads_back_witness :
  difference (getTimes 0 (Int 1699999880) (Some (Int 1700000000))) = Int 120000
  /\ unit_ms Minute <= 120000 < unit_limit Minute
  /\ exists N : Z,
       StringToNumber
         (first_word (get 0 (Int 1699999880) (Some (Int 1700000000))))
       = Int N
       /\ 1 <= N <= unit_max_count Minute
       /\ N * unit_ms Minute <= 120000 < (N + 1) * unit_ms Minute.
Proof.
  assert (Hd : difference (getTimes 0 (Int 1699999880) (Some (Int 1700000000)))
               = Int 120000) by (vm_compute; reflexivity).
  assert (Hr : unit_ms Minute <= 120000 < unit_limit Minute) by (cbn; lia).
  split; [exact Hd|split; [exact Hr|]].
  exact (count_reads_back Minute 0 _ _ 120000 Hd Hr).
Defined.

(** X7. From one year on, off the whole years: the phrase counts at
    least one year and between 0 and 11 months, and never overstates
    the elapsed time:
    [Y * year + M * month <= d < Y * year + (M + 1) * month]. *)
Theorem months_part_bounds clock timestamp referenceTimestamp d :
  difference (getTimes clock timestamp referenceTimestamp) = Int d ->
  31557600000 <= d ->
  d mod 31557600000 <> 0 ->
  exists Y M : Z,
    1 <= Y
    /\ 0 <= M <= 11
    /\ Y * 31557600000 + M * 2629800000 <= d
       < Y * 31557600000 + (M + 1) * 2629800000
    /\ get clock timestamp referenceTimestamp
       = numeral Y ++ " " ++ plural_above_one Y "year" ++ " and "
         ++ numeral M ++ " " ++ plural_above_one M "month" ++ " ago".
Proof.
  intros Hd Hy Hm.
  exists (d / 31557600000), ((d mod 31557600000) / 2629800000).
  pose proof (Z.mod_pos_bound d 31557600000 ltac:(lia)) as Hmod.
  pose proof (Z.div_mod d 31557600000 ltac:(lia)) as Hdiv.
  set (y := d / 31557600000) in *.
  set (r := d mod 31557600000) in *.
  pose proof (Z.mul_div_le r 2629800000 ltac:(lia)) as Hlo.
  pose proof (Z.mul_succ_div_gt r 2629800000 ltac:(lia)) as Hhi.
  assert (Hm0 : 0 <= r / 2629800000) by (apply Z.div_pos; lia).
  assert (Hm11 : r / 2629800000 < 12)
    by (apply Z.div_lt_upper_bound; lia).
  assert (Hy1 : 1 <= y)
    by (subst y; apply Z.div_le_lower_bound; lia).
  split; [exact Hy1|]. split; [lia|]. split; [lia|].
  unfold get. rewrite (cascade_years _ _ _ d Hd Hy).
  subst y r. now apply years_mixed.
Qed.

Lemma months_part_bounds_witness :
  difference (getTimes 0 (Int 0) (Some (Int 31557601))) = Int 31557601000
  /\ 31557600000 <= 31557601000
  /\ 31557601000 mod 31557600000 <> 0
  /\ exists Y M : Z,
       1 <= Y
       /\ 0 <= M <= 11
       /\ Y * 31557600000 + M * 2629800000 <= 31557601000
          < Y * 31557600000 + (M + 1) * 2629800000
       /\ get 0 (Int 0) (Some (Int 31557601))
          = numeral Y ++ " " ++ plural_above_one Y "year" ++ " and "
            ++ numeral M ++ " " ++ plural_above_one M "month" ++ " ago".
Proof.
  assert (Hd : difference (getTimes 0 (Int 0) (Some (Int 31557601)))
               = Int 31557601000) by (vm_compute; reflexivity).
  assert (Hy : 31557600000 <= 31557601000) by lia.
  assert (Hm : 31557601000 mod 31557600000 <> 0)
    by (vm_compute; discriminate).
  split; [exact Hd|split; [exact Hy|split; [exact Hm|]]].
  exact (months_part_bounds 0 _ _ 31557601000 Hd Hy Hm).
Defined.

(** ** Beyond the claims: the characters of a phrase *)

(** Every phrase [getVagueTime] can return, whatever its arguments. *)
Lemma phrase_forms clock timestamp referenceTimestamp :
  getVagueTime clock timestamp referenceTimestamp = "just now"
  \/ (exists (q : Z) (noun : string),
        1 <= q <= max_safe /\ In noun nouns
        /\ getVagueTime clock timestamp referenceTimestamp
           = numeral q ++ " " ++ plural_above_one q noun ++ " ago")
  \/ (exists Y M : Z,
        1 <= Y <= max_safe /\ 0 <= M <= 11
        /\ getVagueTime clock timestamp referenceTimestamp
           = numeral Y ++ " " ++ plural_above_one Y "year" ++ " and "
             ++ numeral M ++ " " ++ plural_above_one M "month" ++ " ago").
Proof.
  destruct (difference (getTimes clock timestamp referenceTimestamp))
    as [|d] eqn:Hd; [left; now apply cascade_NaN|].
  pose proof (difference_bounded _ _ _ _ Hd) as Hb. unfold max_time in Hb.
  assert (Hq : forall u, 60000 <= u -> u <= d -> 1 <= d / u <= max_safe).
  { intros u Hu Hle. split; [apply Z.div_le_lower_bound; lia|].
    apply Z.div_le_upper_bound; [lia|]. unfold max_safe. nia. }
  assert (Hunit : forall u, unit_ms u <= d < unit_limit u ->
            exists (q : Z) (noun : string),
              1 <= q <= max_safe /\ In noun nouns
              /\ getVagueTime clock timestamp referenceTimestamp
                 = numeral q ++ " " ++ plural_above_one q noun ++ " ago").
  { intros u H. exists (d / unit_ms u), (unit_name u).
    split; [apply Hq; [destruct u; cbn; lia|lia]|].
    split; [destruct u; simpl; tauto|].
    now apply single_unit_form. }
  destruct (difference_cases d) as [H|[H|[H|[H|[H|[H|H]]]]]].
  - left. now apply (cascade_just_now _ _ _ d Hd).
  - right; left. exact (Hunit Minute H).
  - right; left. exact (Hunit Hour H).
  - right; left. exact (Hunit Day H).
  - right; left. exact (Hunit Week H).
  - right; left. exact (Hunit Month H).
  - right. rewrite (cascade_years _ _ _ d Hd H).
    destruct (Z.eq_dec (d mod 31557600000) 0) as [E|E].
    + left. exists (d / 31557600000), "year".
      split; [apply Hq; lia|]. split; [simpl; tauto|].
      now apply years_whole.
    + right. exists (d / 31557600000), ((d mod 31557600000) / 2629800000).
      split; [apply Hq; lia|].
      pose proof (Z.mod_pos_bound d 31557600000 ltac:(lia)) as Hmod.
      split.
      { split; [apply Z.div_pos; lia|].
        apply Z.lt_succ_r. apply Z.div_lt_upper_bound; lia. }
      now apply years_mixed.
Qed.

Lemma all_chars_app (p : ascii -> bool) (a b : string) :
  all_chars p (a ++ b) = all_chars p a && all_chars p b.
Proof.
  induction a as [|c a IH]; simpl; [reflexivity|].
  now rewrite IH, andb_assoc.
Qed.

Lemma all_chars_digits (s : string) :
  digits_only s = true -> all_chars phrase_char s = true.
Proof.
  induction s as [|c s IH]; simpl; [reflexivity|].
  intros H. apply andb_prop in H. destruct H as [Hc Hs].
  rewrite (IH Hs). unfold phrase_char. now rewrite Hc.
Qed.

Lemma all_chars_numeral (q : Z) :
  0 <= q <= max_safe -> all_chars phrase_char (numeral q) = true.
Proof. intros H. now apply all_chars_digits, digits_only_numeral. Qed.

Lemma all_chars_plural (q : Z) (noun : string) :
  In noun nouns ->
  all_chars phrase_char (plural_above_one q noun) = true.
Proof.
  intros Hin. unfold plural_above_one. simpl in Hin.
  destruct Hin as [<-|[<-|[<-|[<-|[<-|[<-|[]]]]]]];
    destruct (1 <? q); reflexivity.
Qed.

(** A pattern that starts with a character outside a class does not
    occur in a string made of that class. *)
Lemma contains_outside (p : ascii -> bool) (c : ascii) (pat s : string) :
  p c = false -> all_chars p s = true -> contains (String c pat) s = false.
Proof.
  intros Hc. induction s as [|a s IH]; [reflexivity|].
  intros H. simpl in H. apply andb_prop in H. destruct H as [Ha Hs].
  cbn [contains String.prefix]. rewrite (IH Hs).
  destruct (ascii_dec c a) as [<-|_]; [congruence|reflexivity].
Qed.

(** X8. Whatever the arguments, the phrase is made of digits,
    lower-case letters and spaces only: it never shows ["NaN"] and never
    shows a minus sign. *)
Theorem phrase_alphabet (clock : Z) (timestamp : number)
    (referenceTimestamp : option number) :
  all_chars phrase_char (get clock timestamp referenceTimestamp) = true
  /\ contains "NaN" (get clock timestamp referenceTimestamp) = false
  /\ contains "-" (get clock timestamp referenceTimestamp) = false.
Proof.
  assert (H : all_chars phrase_char
                (get clock timestamp referenceTimestamp) = true).
  { unfold get.
    destruct (phrase_forms clock timestamp referenceTimestamp)
      as [->|[(q & noun & Hq & Hin & ->)|(Y & M & HY & HM & ->)]].
    - reflexivity.
    - rewrite !all_chars_app, all_chars_numeral, all_chars_plural
        by (assumption || lia).
      reflexivity.
    - rewrite !all_chars_app, !all_chars_numeral
        by (unfold max_safe in *; lia).
      rewrite !all_chars_plural by (simpl; tauto).
      reflexivity. }
  split; [exact H|].
  split; apply (contains_outside phrase_char); (reflexivity || exact H).
Qed.
